(** * Yield term structure of surfertas/quantlib
    (src/src/termstructures/yieldtermstructure.rs)

    Shallow embedding of the yield term structure: the curve state, the
    jump bookkeeping of [set_jumps], and the discount / zero-rate /
    forward-rate queries.

    Modelling conventions.
    - [Time], discount factors and quote values (Rust [f64]) are exact
      rationals [Q]; IEEE rounding is abstracted away.  The comparisons
      [==], [<], [>] of the source are [Qeq_bool] and [Qlt_bool].
    - Fallible code returns a [result]: a Rust panic (failed [assert!],
      out-of-bounds [Vec] index, [unwrap] of [None]) is an [Err].  Each
      [assert!] is tagged with the error kind the specification assigns
      to that check.
    - [Date], [Base] (reference date, day counter, range checks) and the
      rate inversion of [InterestRate] live outside src/; the parts used
      here are modelled from the specification and marked as such. *)

From Stdlib Require Import ZArith QArith List Bool Lia.
Import ListNotations.

Open Scope Q_scope.

(** [a < b] on [f64], read on [Q]. *)
Definition Qlt_bool (a b : Q) : bool := negb (Qle_bool b a).

(** [a.max(b)] on [f64]. *)
Definition f64_max (a b : Q) : Q := if Qle_bool a b then b else a.

(** ** Errors and the result monad *)

Inductive error : Type :=
  | OutOfRange          (* range check of Base *)
  | InvalidQuote        (* assert!(quote.is_valid()) *)
  | DomainError         (* assert!(x > 0.0), assert!(d1 < d2), rate inversion *)
  | Unresolved          (* reference date read before it is set *)
  | IndexOutOfBounds    (* Vec index past its length *)
  | UnwrapNone.         (* Option::unwrap on None *)

Inductive result (A : Type) : Type :=
  | Ok : A -> result A
  | Err : error -> result A.
Arguments Ok {A} _.
Arguments Err {A} _.

Definition bind {A B : Type} (m : result A) (k : A -> result B) : result B :=
  match m with
  | Ok a => k a
  | Err e => Err e
  end.

Notation "x <- m ;; k" := (bind m (fun x => k))
  (at level 61, m at next level, right associativity).
Notation "m ;;; k" := (bind m (fun _ : unit => k))
  (at level 61, right associativity).

(** [Option::unwrap]. *)
Definition unwrap {A : Type} (o : option A) : result A :=
  match o with Some a => Ok a | None => Err UnwrapNone end.

(** [assert!(b)], failing with the given error kind. *)
Definition assert_ (b : bool) (e : error) : result unit :=
  if b then Ok tt else Err e.

(** ** Vectors: Rust [Vec] indexing *)

(** [v[n]] as an rvalue: panics past the end. *)
Definition vec_get {A : Type} (v : list A) (n : nat) : result A :=
  match nth_error v n with
  | Some a => Ok a
  | None => Err IndexOutOfBounds
  end.

Fixpoint replace_nth {A : Type} (v : list A) (n : nat) (a : A) : list A :=
  match v, n with
  | [], _ => []
  | _ :: v', O => a :: v'
  | x :: v', S n' => x :: replace_nth v' n' a
  end.

(** [v[n] = a]: panics past the end. *)
Definition vec_set {A : Type} (v : list A) (n : nat) (a : A) : result (list A) :=
  if Nat.ltb n (length v) then Ok (replace_nth v n a) else Err IndexOutOfBounds.

(** [v.resize_with(k, f)]: truncate to [k] or pad with [f()]. *)
Definition resize_with {A : Type} (v : list A) (k : nat) (f : A) : list A :=
  firstn k v ++ repeat f (k - length v).

(** ** Dates *)

Inductive Month : Type :=
  | January | February | March | April | May | June | July | August
  | September | October | November | December.

Definition month_num (m : Month) : Z :=
  match m with
  | January => 1 | February => 2 | March => 3 | April => 4
  | May => 5 | June => 6 | July => 7 | August => 8
  | September => 9 | October => 10 | November => 11 | December => 12
  end.

(** Modelled from the spec: [Date] of crate::time (not in src/), a calendar
    day, totally ordered; here the triple [Date::new(day, month, year)]
    ordered by year, then month, then day. *)
Record Date : Type := Date_new {
  date_day : Z;
  date_month : Month;
  date_year : Z
}.

Definition date_key (d : Date) : Z * Z * Z :=
  (date_year d, month_num (date_month d), date_day d).

Definition date_lt (a b : Date) : bool :=
  let '(y1, m1, d1) := date_key a in
  let '(y2, m2, d2) := date_key b in
  (y1 <? y2)%Z || ((y1 =? y2)%Z && ((m1 <? m2)%Z || ((m1 =? m2)%Z && (d1 <? d2)%Z))).

Definition date_eqb (a b : Date) : bool :=
  let '(y1, m1, d1) := date_key a in
  let '(y2, m2, d2) := date_key b in
  (y1 =? y2)%Z && (m1 =? m2)%Z && (d1 =? d2)%Z.

Definition date_gt (a b : Date) : bool := date_lt b a.

(** [Date::default()]: a placeholder day; every slot holding it is
    overwritten by [set_jumps] before it is read. *)
Definition Date_default : Date := Date_new 1 January 1901.

(** ** Quotes, day counters, conventions *)

(** A quote as seen by the curve: [value()] and [is_valid()]. *)
Record Quote : Type := mkQuote {
  value : Q;
  is_valid : bool
}.

Definition Time := Q.
Definition DiscountFactor := Q.

(** A day counter is its year fraction [year_fraction(start, end)]. *)
Definition DayCounter := Date -> Date -> Time.

Inductive Compounding : Type :=
  | Simple | Compounded | Continuous | SimpleThenCompounded | CompoundedThenSimple.

Inductive Frequency : Type :=
  | NoFrequency | Once | Annual | Semiannual | EveryFourthMonth | Quarterly
  | Bimonthly | Monthly | EveryFourthWeek | Biweekly | Weekly | Daily
  | OtherFrequency.

Record InterestRate : Type := mkInterestRate {
  rate : Q;
  ir_day_counter : DayCounter;
  ir_compounding : Compounding;
  ir_frequency : Frequency
}.

(** [const dt: Time = 0.0001]. *)
Definition dt : Time := 1 # 10000.

(** ** Base term structure *)

(** Modelled from the spec: [Base] (super::base, not in src/), holding the
    reference date (unset until resolved), calendar, day counter,
    settlement days and the validity bounds [max_date] / [max_time]. *)
Record Base : Type := mkBase {
  calendar : option nat;
  reference_date_ : option Date;
  day_counter : DayCounter;
  settlement_days : Z;
  max_date : Date;
  max_time : Time
}.

(** Modelled from the spec: [Base::reference_date], failing fast when the
    reference date is unresolved. *)
Definition base_reference_date (b : Base) : result Date :=
  match reference_date_ b with
  | Some d => Ok d
  | None => Err Unresolved
  end.

(** Modelled from the spec: [Base::time_from_reference(date)] is
    [day_counter.year_fraction(reference_date, date)]. *)
Definition base_time_from_reference (b : Base) (d : Date) : result Time :=
  r <- base_reference_date b ;;
  Ok (day_counter b r d).

(** Modelled from the spec: [Base::check_range_with_time(time, max_time,
    extrapolate)] fails with OutOfRange when [time < 0] or when
    [time > max_time] and not [extrapolate]. *)
Definition check_range_with_time (time max_t : Time) (extrapolate : bool)
  : result unit :=
  if Qlt_bool time 0 then Err OutOfRange
  else if Qlt_bool max_t time && negb extrapolate then Err OutOfRange
  else Ok tt.

(** Modelled from the spec: [Base::check_range(date, reference_date,
    max_date, extrapolate)] fails with OutOfRange when [date <
    reference_date] or when [date > max_date] and not [extrapolate]. *)
Definition check_range (d ref maxd : Date) (extrapolate : bool) : result unit :=
  if date_lt d ref then Err OutOfRange
  else if date_gt d maxd && negb extrapolate then Err OutOfRange
  else Ok tt.

(** ** The yield term structure *)

(** [struct YieldTermStructure]; [DiscountImpl] is the boxed closure
    [Time -> DiscountFactor]. *)
Record YieldTermStructure : Type := mkYTS {
  base : Base;
  jumps : list Quote;
  jump_times : list Time;
  jump_dates : list Date;
  latest_reference : option Date;
  jumps_num : nat;
  discount_impl : option (Time -> DiscountFactor)
}.

Definition with_jump_vectors (s : YieldTermStructure) (jt : list Time)
    (jd : list Date) : YieldTermStructure :=
  mkYTS (base s) (jumps s) jt jd (latest_reference s) (jumps_num s) (discount_impl s).

Definition with_latest_reference (s : YieldTermStructure) (r : option Date)
  : YieldTermStructure :=
  mkYTS (base s) (jumps s) (jump_times s) (jump_dates s) r (jumps_num s)
    (discount_impl s).

(** [impl Default for YieldTermStructure]; [b0] is [Base::default()]. *)
Definition yts_default (b0 : Base) : YieldTermStructure :=
  mkYTS b0 [] [] [] None 0 None.

(** The [TermStructure] accessors, all delegating to [base]. *)
Definition reference_date (s : YieldTermStructure) : result Date :=
  base_reference_date (base s).
Definition time_from_reference (s : YieldTermStructure) (d : Date) : result Time :=
  base_time_from_reference (base s) d.
Definition yts_day_counter (s : YieldTermStructure) : DayCounter :=
  day_counter (base s).
Definition yts_max_time (s : YieldTermStructure) : Time := max_time (base s).
Definition yts_max_date (s : YieldTermStructure) : Date := max_date (base s).

Definition with_base (s : YieldTermStructure) (b : Base) : YieldTermStructure :=
  mkYTS b (jumps s) (jump_times s) (jump_dates s) (latest_reference s)
    (jumps_num s) (discount_impl s).

(** [fn set_calendar(&self, calendar)]: [base.calendar = Some(calendar)]. *)
Definition set_calendar (s : YieldTermStructure) (cal : nat) : YieldTermStructure :=
  let b := base s in
  with_base s (mkBase (Some cal) (reference_date_ b) (day_counter b)
                 (settlement_days b) (max_date b) (max_time b)).

(** [fn set_reference_date(&self, date)]: [base.reference_date = Some(date)]. *)
Definition set_reference_date (s : YieldTermStructure) (d : Date) : YieldTermStructure :=
  let b := base s in
  with_base s (mkBase (calendar b) (Some d) (day_counter b)
                 (settlement_days b) (max_date b) (max_time b)).

(** [fn set_day_counter(&self, day_counter)]. *)
Definition set_day_counter (s : YieldTermStructure) (dc : DayCounter)
  : YieldTermStructure :=
  let b := base s in
  with_base s (mkBase (calendar b) (reference_date_ b) dc
                 (settlement_days b) (max_date b) (max_time b)).

(** [fn set_settlement_days(&self, settlement_days)]. *)
Definition set_settlement_days (s : YieldTermStructure) (sd : Z)
  : YieldTermStructure :=
  let b := base s in
  with_base s (mkBase (calendar b) (reference_date_ b) (day_counter b)
                 sd (max_date b) (max_time b)).

(** First loop of [set_jumps]:
    [for n in 0..=jumps_num { jump_dates[n] = Date::new(31, December, y + n) }]. *)
Fixpoint default_jump_dates (jd : list Date) (y : Z) (ns : list nat)
  : result (list Date) :=
  match ns with
  | [] => Ok jd
  | n :: ns' =>
      jd' <- vec_set jd n (Date_new 31 December (y + Z.of_nat n)) ;;
      default_jump_dates jd' y ns'
  end.

(** Second loop of [set_jumps]:
    [for n in 0..=jumps_num { jump_times[n] = time_from_reference(jump_dates[n]) }];
    the assigned value is evaluated before the place. *)
Fixpoint refresh_jump_times (s : YieldTermStructure) (jt : list Time)
    (ns : list nat) : result (list Time) :=
  match ns with
  | [] => Ok jt
  | n :: ns' =>
      d <- vec_get (jump_dates s) n ;;
      tm <- time_from_reference s d ;;
      jt' <- vec_set jt n tm ;;
      refresh_jump_times s jt' ns'
  end.

(** [fn set_jumps(&self)]. *)
Definition set_jumps (s : YieldTermStructure) : result YieldTermStructure :=
  s1 <- (if (match jump_dates s with [] => true | _ => false end)
             && negb (match jumps s with [] => true | _ => false end)
         then
           let jt := resize_with (jump_times s) (jumps_num s) 0 in
           let jd := resize_with (jump_dates s) (jumps_num s) Date_default in
           r <- reference_date s ;;
           let y := date_year r in
           jd' <- default_jump_dates jd y (seq 0 (S (jumps_num s))) ;;
           Ok (with_jump_vectors s jt jd')
         else Ok s) ;;
  jt <- refresh_jump_times s1 (jump_times s1) (seq 0 (S (jumps_num s1))) ;;
  r <- reference_date s1 ;;
  Ok (with_latest_reference (with_jump_vectors s1 jt (jump_dates s1)) (Some r)).

(** [YieldTermStructure::new]; [b0] is the [Base::default()] that
    [Self::default()] starts from. *)
Definition new (b0 : Base) (cal : nat) (ref : Date) (dc : DayCounter)
    (sd : Z) (js : list Quote) (jds : list Date)
    (impl : Time -> DiscountFactor) : result YieldTermStructure :=
  let yt := yts_default b0 in
  let b := mkBase (Some cal) (Some ref) dc sd (max_date b0) (max_time b0) in
  set_jumps (mkYTS b js (jump_times yt) jds (latest_reference yt)
                   (length js) (Some impl)).

(** Loop of [discount_with_time] over [n in 0..=jumps_num]. *)
Fixpoint jump_loop (s : YieldTermStructure) (time : Time) (ns : list nat)
    (jump_effect : DiscountFactor) : result DiscountFactor :=
  match ns with
  | [] => Ok jump_effect
  | n :: ns' =>
      tn <- vec_get (jump_times s) n ;;
      if Qlt_bool 0 tn && Qlt_bool tn time then
        q <- vec_get (jumps s) n ;;
        assert_ (is_valid q) InvalidQuote ;;;
        let this_jump := value q in
        assert_ (Qlt_bool 0 this_jump) DomainError ;;;
        jump_loop s time ns' (jump_effect * this_jump)
      else jump_loop s time ns' jump_effect
  end.

(** [fn discount_with_time(&self, time, extrapolate)]. *)
Definition discount_with_time (s : YieldTermStructure) (time : Time)
    (extrapolate : bool) : result DiscountFactor :=
  check_range_with_time time (yts_max_time s) extrapolate ;;;
  match jumps s with
  | [] => f <- unwrap (discount_impl s) ;; Ok (f time)
  | _ :: _ =>
      jump_effect <- jump_loop s time (seq 0 (S (jumps_num s))) 1 ;;
      f <- unwrap (discount_impl s) ;;
      Ok (jump_effect * f time)
  end.

(** [fn discount(&self, date, extrapolate)]. *)
Definition discount (s : YieldTermStructure) (date : Date) (extrapolate : bool)
  : result DiscountFactor :=
  t <- time_from_reference s date ;;
  discount_with_time s t extrapolate.

(** ** Rate queries

    The rate inversions [InterestRate::implied_rate] and
    [InterestRate::implied_rate_with_time] are not in src/; the queries
    are parametric in them, so every fact below holds whatever inversion
    the [InterestRate] module implements. *)

Section RateQueries.

Variable implied_rate : Q -> DayCounter -> Compounding -> Frequency ->
  Date -> Date -> option Q -> option Time -> result InterestRate.
Variable implied_rate_with_time : Q -> DayCounter -> Compounding -> Frequency ->
  Time -> result InterestRate.

(** [fn zero_rate(&self, date, result_day_counter, comp, freq, extrapolate)]. *)
Definition zero_rate (s : YieldTermStructure) (date : Date)
    (result_day_counter : DayCounter) (comp : Compounding) (freq : Frequency)
    (extrapolate : bool) : result InterestRate :=
  r <- reference_date s ;;
  if date_eqb date r then
    df <- discount_with_time s dt extrapolate ;;
    let compound := 1 / df in
    implied_rate_with_time compound result_day_counter comp freq dt
  else
    df <- discount s date extrapolate ;;
    let compound := 1 / df in
    r' <- reference_date s ;;
    implied_rate compound result_day_counter comp freq r' date None None.

(** [fn zero_rate_with_time(&self, time, comp, freq, extrapolate)]. *)
Definition zero_rate_with_time (s : YieldTermStructure) (time : Time)
    (comp : Compounding) (freq : Frequency) (extrapolate : bool)
  : result InterestRate :=
  let time := if Qeq_bool time 0 then dt else time in
  df <- discount_with_time s dt extrapolate ;;
  let compound := 1 / df in
  implied_rate_with_time compound (yts_day_counter s) comp freq time.

(** [fn forward_rate(&self, d1, d2, result_day_counter, comp, freq, extrapolate)]. *)
Definition forward_rate (s : YieldTermStructure) (d1 d2 : Date)
    (result_day_counter : DayCounter) (comp : Compounding) (freq : Frequency)
    (extrapolate : bool) : result InterestRate :=
  if date_eqb d1 d2 then
    r <- reference_date s ;;
    check_range d1 r (yts_max_date s) extrapolate ;;;
    tf <- time_from_reference s d1 ;;
    let t1 := f64_max (tf - dt / 2) 0 in
    let t2 := t1 + dt in
    a <- discount_with_time s t1 true ;;
    b <- discount_with_time s t2 true ;;
    let compound := a / b in
    implied_rate_with_time compound result_day_counter comp freq dt
  else
    assert_ (date_lt d1 d2) DomainError ;;;
    a <- discount s d1 extrapolate ;;
    b <- discount s d2 extrapolate ;;
    let compound := a / b in
    implied_rate compound result_day_counter comp freq d1 d2 None None.

(** [fn forward_rate_with_time(&self, t1, t2, result_day_counter, comp, freq,
    extrapolate)]; the ordering requirement is commented out in the source. *)
Definition forward_rate_with_time (s : YieldTermStructure) (t1 t2 : Time)
    (result_day_counter : DayCounter) (comp : Compounding) (freq : Frequency)
    (extrapolate : bool) : result InterestRate :=
  p <- (if Qeq_bool t2 t1 then
          check_range_with_time t1 (yts_max_time s) extrapolate ;;;
          let t1 := f64_max (t1 - dt / 2) 0 in
          let t2 := t1 + dt in
          a <- discount_with_time s t1 true ;;
          b <- discount_with_time s t2 true ;;
          Ok (t1, t2, a / b)
        else
          a <- discount_with_time s t1 extrapolate ;;
          b <- discount_with_time s t2 extrapolate ;;
          Ok (t1, t2, a / b)) ;;
  let '(t1, t2, compound) := p in
  implied_rate_with_time compound (yts_day_counter s) comp freq (t2 - t1).

End RateQueries.

(** Modelled from the spec: [InterestRate::implied_rate_with_time] for
    Simple compounding, [rate = (compound_factor - 1) / t], failing with
    DomainError when [compound_factor <= 0] or [t <= 0]. *)
Definition implied_rate_with_time_simple (compound : Q) (dc : DayCounter)
    (comp : Compounding) (freq : Frequency) (t : Time) : result InterestRate :=
  if Qle_bool compound 0 || Qle_bool t 0 then Err DomainError
  else Ok (mkInterestRate ((compound - 1) / t) dc comp freq).

(** Modelled from the spec: [InterestRate::implied_rate] for Simple
    compounding, the elapsed time being [day_counter(start, end)]. *)
Definition implied_rate_simple (compound : Q) (dc : DayCounter)
    (comp : Compounding) (freq : Frequency) (d1 d2 : Date)
    (_ : option Q) (_ : option Time) : result InterestRate :=
  implied_rate_with_time_simple compound dc comp freq (dc d1 d2).

(** ** Sample curves *)

(** A 30/360 year fraction. *)
Definition thirty360 : DayCounter := fun a b =>
  inject_Z ((date_year b - date_year a) * 360
            + (month_num (date_month b) - month_num (date_month a)) * 30
            + (date_day b - date_day a))%Z / 360.
Definition ref_2024 : Date := Date_new 1 January 2024.

(** A resolved base: reference date 2024-01-01, validity up to ten years. *)
Definition base_2024 : Base :=
  mkBase (Some 0%nat) (Some ref_2024) thirty360 0 (Date_new 1 January 2034) 10.

(** Discount rule [1 / (1 + t)]. *)
Definition hyperbolic : Time -> DiscountFactor := fun t => 1 / (1 + t).

(** A curve without jumps. *)
Definition curve_plain : YieldTermStructure :=
  mkYTS base_2024 [] [] [] (Some ref_2024) 0 (Some hyperbolic).

(** A curve with one jump of value 9/10 at time 1/2, vectors of length
    [jumps_num = 1]. *)
Definition curve_one_jump : YieldTermStructure :=
  mkYTS base_2024 [mkQuote (9 # 10) true] [1 # 2] [Date_new 1 July 2024]
    (Some ref_2024) 1 (Some hyperbolic).

(** A curve whose single jump, at time 1/2, has an invalid quote. *)
Definition curve_invalid_jump : YieldTermStructure :=
  mkYTS base_2024 [mkQuote (9 # 10) false] [1 # 2] [Date_new 1 July 2024]
    (Some ref_2024) 1 (Some hyperbolic).

(** A curve with one jump quote and no jump dates, as handed to [set_jumps]. *)
Definition curve_quotes_only : YieldTermStructure :=
  mkYTS base_2024 [mkQuote (9 # 10) true] [] [] None 1 (Some hyperbolic).

(** The jump test of [discount_with_time]:
    [jump_times[n] > 0.0 && jump_times[n] < time]. *)
Definition jump_applies (s : YieldTermStructure) (t : Time) (n : nat) : bool :=
  match nth_error (jump_times s) n with
  | Some tn => Qlt_bool 0 tn && Qlt_bool tn t
  | None => false
  end.

(** Product of [jumps[n].value()] over the indices [ns] whose jump applies
    at time [t]. *)
Definition applied_jump_product (s : YieldTermStructure) (t : Time)
    (ns : list nat) : Q :=
  fold_right (fun n p =>
    (if jump_applies s t n then value (nth n (jumps s) (mkQuote 1 true)) else 1) * p)
    1 ns.

(** A base whose reference date is not resolved yet. *)
Definition base_unresolved : Base :=
  mkBase None None thirty360 0 (Date_new 1 January 2034) 10.

Definition curve_unresolved : YieldTermStructure :=
  mkYTS base_unresolved [] [] [] None 0 (Some hyperbolic).

(** ** Auxiliary facts *)

Lemma bind_ok {A B : Type} (a : A) (k : A -> result B) : bind (Ok a) k = k a.
Proof. reflexivity. Qed.

Lemma date_eqb_refl (d : Date) : date_eqb d d = true.
Proof.
  destruct d as [dd m y]; unfold date_eqb, date_key; simpl.
  now rewrite !Z.eqb_refl.
Qed.

Ltac date_cases :=
  repeat match goal with
  | |- context [(?a <? ?b)%Z] => destruct (Z.ltb_spec a b)
  | |- context [(?a =? ?b)%Z] => destruct (Z.eqb_spec a b)
  end; simpl; try lia.

Lemma date_lt_asym (a b : Date) : date_lt a b = true -> date_lt b a = false.
Proof.
  destruct a as [d1 m1 y1], b as [d2 m2 y2]; unfold date_lt, date_key; simpl.
  date_cases; discriminate.
Qed.

Lemma date_lt_neq (a b : Date) : date_lt a b = true -> date_eqb a b = false.
Proof.
  destruct a as [d1 m1 y1], b as [d2 m2 y2]; unfold date_lt, date_eqb, date_key; simpl.
  date_cases; discriminate.
Qed.

Lemma replace_nth_length {A : Type} (v : list A) (n : nat) (a : A) :
  length (replace_nth v n a) = length v.
Proof.
  revert n; induction v as [|x v IH]; intros [|n]; simpl; auto.
Qed.

Lemma resize_with_length {A : Type} (v : list A) (k : nat) (f : A) :
  length (resize_with v k f) = k.
Proof.
  unfold resize_with; rewrite length_app, length_firstn, repeat_length; lia.
Qed.

(** The jump loop never gets past an index beyond [jump_times]. *)
Lemma jump_loop_past_end (s : YieldTermStructure) (t : Time) (k : nat) :
  nth_error (jump_times s) k = None ->
  forall ns acc v, jump_loop s t (ns ++ [k]) acc <> Ok v.
Proof.
  intros Hk ns; induction ns as [|n ns IH]; intros acc v; simpl.
  - unfold vec_get; rewrite Hk; discriminate.
  - unfold vec_get; destruct (nth_error (jump_times s) n) as [tn|]; simpl;
      [|discriminate].
    destruct (Qlt_bool 0 tn && Qlt_bool tn t); [|apply IH].
    destruct (nth_error (jumps s) n) as [q|]; simpl; [|discriminate].
    unfold assert_; destruct (is_valid q); simpl; [|discriminate].
    destruct (Qlt_bool 0 (value q)); simpl; [apply IH|discriminate].
Qed.

(** The default-date loop of [set_jumps] panics at the first index past
    the vector. *)
Lemma default_jump_dates_past_end (y : Z) (k : nat) :
  forall ns jd, length jd = k -> Forall (fun n => (n < k)%nat) ns ->
  default_jump_dates jd y (ns ++ [k]) = Err IndexOutOfBounds.
Proof.
  intros ns; induction ns as [|n ns IH]; intros jd Hlen Hns; simpl.
  - unfold vec_set; rewrite Hlen, Nat.ltb_irrefl; reflexivity.
  - inversion Hns as [|? ? Hn Hrest]; subst.
    unfold vec_set; destruct (Nat.ltb_spec n (length jd)); [|lia].
    simpl; apply IH; [rewrite replace_nth_length; reflexivity | exact Hrest].
Qed.

Lemma seq_below (k : nat) : Forall (fun n => (n < k)%nat) (seq 0 k).
Proof.
  apply Forall_forall; intros n Hn; apply in_seq in Hn; lia.
Qed.

(** ** Discount factors *)

(** C1 (code_bug): on a curve with a non-empty jump list whose
    [jump_times] has [jumps_num] entries, [discount_with_time] never
    returns a discount factor: the loop [for n in 0..=jumps_num] reads
    [jump_times[jumps_num]], one past the end, unless an earlier jump
    already failed its checks. *)
Theorem discount_with_time_jumped_never_ok (s : YieldTermStructure) (t : Time)
    (extrapolate : bool) (v : DiscountFactor) :
  jumps s <> [] ->
  length (jump_times s) = jumps_num s ->
  discount_with_time s t extrapolate <> Ok v.
Proof.
  intros Hj Hlen; unfold discount_with_time; rewrite seq_S, Nat.add_0_l.
  destruct (check_range_with_time t (yts_max_time s) extrapolate) as [[]|e];
    simpl; [|discriminate].
  destruct (jumps s) as [|q qs]; [contradiction|].
  destruct (jump_loop s t (seq 0 (jumps_num s) ++ [jumps_num s]) 1)
    as [je|e] eqn:E; simpl; [|discriminate].
  exfalso; eapply jump_loop_past_end; [|exact E].
  apply nth_error_None; lia.
Qed.

Lemma discount_with_time_jumped_never_ok_witness :
  (jumps curve_one_jump <> [] /\ length (jump_times curve_one_jump) = jumps_num curve_one_jump)
  /\ discount_with_time curve_one_jump 1 true <> Ok ((9 # 10) * hyperbolic 1).
Proof.
  split; [split; [discriminate | reflexivity]|].
  apply (discount_with_time_jumped_never_ok curve_one_jump 1 true);
    [discriminate | reflexivity].
Defined.

(** C2 (corrected): past [max_time] without extrapolation the query
    fails with OutOfRange before anything is computed, and a negative
    time fails with OutOfRange under either flag; with extrapolation a
    non-negative time passes the range check and the query is the jump and
    discount computation itself, which may still fail on its own checks. *)
Theorem discount_with_time_range (s : YieldTermStructure) (t : Time) :
  (yts_max_time s < t -> discount_with_time s t false = Err OutOfRange) /\
  (t < 0 -> forall extrapolate, discount_with_time s t extrapolate = Err OutOfRange) /\
  (0 <= t -> discount_with_time s t true =
     match jumps s with
     | [] => f <- unwrap (discount_impl s) ;; Ok (f t)
     | _ :: _ =>
         jump_effect <- jump_loop s t (seq 0 (S (jumps_num s))) 1 ;;
         f <- unwrap (discount_impl s) ;;
         Ok (jump_effect * f t)
     end).
Proof.
  unfold discount_with_time, check_range_with_time, Qlt_bool.
  split; [|split].
  - intros H.
    destruct (Qle_bool 0 t); simpl; [|reflexivity].
    replace (Qle_bool t (yts_max_time s)) with false; [reflexivity|].
    symmetry; apply not_true_iff_false; rewrite Qle_bool_iff; apply Qlt_not_le; exact H.
  - intros H e.
    replace (Qle_bool 0 t) with false; [reflexivity|].
    symmetry; apply not_true_iff_false; rewrite Qle_bool_iff; apply Qlt_not_le; exact H.
  - intros H.
    replace (Qle_bool 0 t) with true by (symmetry; apply Qle_bool_iff; exact H).
    simpl; rewrite andb_false_r; reflexivity.
Qed.

Lemma discount_with_time_range_witness :
  discount_with_time curve_plain 11 false = Err OutOfRange /\
  discount_with_time curve_plain (-1) true = Err OutOfRange /\
  discount_with_time curve_plain 11 true = Ok (hyperbolic 11).
Proof.
  destruct (discount_with_time_range curve_plain 11) as [H1 [_ H3]].
  destruct (discount_with_time_range curve_plain (-1)) as [_ [H2 _]].
  split; [apply H1; reflexivity|].
  split; [apply H2; reflexivity|].
  rewrite H3; [reflexivity|discriminate].
Defined.

(** C2 counterexample: past [max_time] with extrapolation, a curve whose
    applicable jump has an invalid quote fails with InvalidQuote instead
    of returning a value. *)
Lemma discount_with_time_extrapolated_invalid_quote :
  ~ exists v, discount_with_time curve_invalid_jump 11 true = Ok v.
Proof.
  intros [v H]; vm_compute in H; discriminate.
Qed.

(** ** Zero and forward rates *)

Section RateFacts.

Variable ir : Q -> DayCounter -> Compounding -> Frequency ->
  Date -> Date -> option Q -> option Time -> result InterestRate.
Variable irt : Q -> DayCounter -> Compounding -> Frequency ->
  Time -> result InterestRate.

(** C3: at the reference date [zero_rate] inverts [1 / discount_with_time(dt)]
    over the elapsed time [dt] with the caller's convention; at any other
    date it inverts [1 / discount(date)] over [reference_date .. date]. *)
Theorem zero_rate_branches (s : YieldTermStructure) (r date : Date)
    (rdc : DayCounter) (comp : Compounding) (freq : Frequency) (e : bool) :
  reference_date s = Ok r ->
  zero_rate ir irt s date rdc comp freq e =
    if date_eqb date r then
      df <- discount_with_time s dt e ;; irt (1 / df) rdc comp freq dt
    else
      df <- discount s date e ;; ir (1 / df) rdc comp freq r date None None.
Proof.
  intros Hr; unfold zero_rate; rewrite Hr; simpl.
  destruct (date_eqb date r); [reflexivity|].
  destruct (discount s date e); reflexivity.
Qed.

(** C5: for [d1 = d2] passing the range check, [forward_rate] is the
    centred difference over [t1 = max(0, t - dt/2)], [t2 = t1 + dt], both
    discount queries extrapolating, inverted over [dt]. *)
Theorem forward_rate_same_date (s : YieldTermStructure) (r d : Date) (t : Time)
    (rdc : DayCounter) (comp : Compounding) (freq : Frequency) (e : bool) :
  reference_date s = Ok r ->
  check_range d r (yts_max_date s) e = Ok tt ->
  time_from_reference s d = Ok t ->
  forward_rate ir irt s d d rdc comp freq e =
    let t1 := f64_max (t - dt / 2) 0 in
    let t2 := t1 + dt in
    a <- discount_with_time s t1 true ;;
    b <- discount_with_time s t2 true ;;
    irt (a / b) rdc comp freq dt.
Proof.
  intros Hr Hc Ht; unfold forward_rate; rewrite date_eqb_refl, Hr; simpl.
  rewrite Hc; simpl; rewrite Ht; reflexivity.
Qed.

(** C6 (corrected): [forward_rate] with [d1 > d2] fails with DomainError;
    with [d1 < d2] the ordering check passes and the result is the
    inversion of [discount(d1) / discount(d2)] over [d1 .. d2], the errors
    of the two discount queries propagating. *)
Theorem forward_rate_ordering (s : YieldTermStructure) (d1 d2 : Date)
    (rdc : DayCounter) (comp : Compounding) (freq : Frequency) (e : bool) :
  (date_lt d2 d1 = true -> forward_rate ir irt s d1 d2 rdc comp freq e = Err DomainError) /\
  (date_lt d1 d2 = true -> forward_rate ir irt s d1 d2 rdc comp freq e =
     a <- discount s d1 e ;;
     b <- discount s d2 e ;;
     ir (a / b) rdc comp freq d1 d2 None None).
Proof.
  unfold forward_rate; split; intros H.
  - pose proof (date_lt_neq _ _ H) as Hne.
    destruct d1 as [x1 m1 y1], d2 as [x2 m2 y2].
    replace (date_eqb {| date_day := x1; date_month := m1; date_year := y1 |}
                      {| date_day := x2; date_month := m2; date_year := y2 |})
      with false.
    + rewrite (date_lt_asym _ _ H); reflexivity.
    + revert Hne; unfold date_eqb, date_key; simpl.
      date_cases; discriminate.
  - rewrite (date_lt_neq _ _ H), H; reflexivity.
Qed.

(** C10: [forward_rate_with_time] ignores [result_day_counter]; any rate
    it returns is the inversion, with the curve's own day counter, over
    [t2 - t1], where [(t1, t2)] are the requested times, or the recentred
    pair [max(0, t1 - dt/2)], [+ dt] when they coincide. *)
Theorem forward_rate_with_time_curve_day_counter (s : YieldTermStructure)
    (t1 t2 : Time) (rdc1 rdc2 : DayCounter) (comp : Compounding)
    (freq : Frequency) (e : bool) :
  forward_rate_with_time irt s t1 t2 rdc1 comp freq e =
    forward_rate_with_time irt s t1 t2 rdc2 comp freq e /\
  (forall v, forward_rate_with_time irt s t1 t2 rdc1 comp freq e = Ok v ->
   exists compound u1 u2,
     irt compound (yts_day_counter s) comp freq (u2 - u1) = Ok v /\
     ((Qeq_bool t2 t1 = false /\ u1 = t1 /\ u2 = t2) \/
      (Qeq_bool t2 t1 = true /\ u1 = f64_max (t1 - dt / 2) 0 /\ u2 = u1 + dt))).
Proof.
  split; [reflexivity|].
  intros v; unfold forward_rate_with_time.
  destruct (Qeq_bool t2 t1) eqn:Heq.
  - destruct (check_range_with_time t1 (yts_max_time s) e) as [[]|err];
      simpl; [|discriminate].
    destruct (discount_with_time s (f64_max (t1 - dt / 2) 0) true) as [a|err];
      simpl; [|discriminate].
    destruct (discount_with_time s (f64_max (t1 - dt / 2) 0 + dt) true) as [b|err];
      simpl; [|discriminate].
    intros H; exists (a / b), (f64_max (t1 - dt / 2) 0), (f64_max (t1 - dt / 2) 0 + dt).
    split; [exact H|right; auto].
  - destruct (discount_with_time s t1 e) as [a|err]; simpl; [|discriminate].
    destruct (discount_with_time s t2 e) as [b|err]; simpl; [|discriminate].
    intros H; exists (a / b), t1, t2; split; [exact H|left; auto].
Qed.

(** C7 (code_bug): [forward_rate_with_time] has its ordering requirement
    commented out; for [t2 < t1] it queries the discount factors first,
    so a negative [t2] fails with OutOfRange rather than DomainError. *)
Theorem forward_rate_with_time_no_ordering_check (rdc : DayCounter)
    (comp : Compounding) (freq : Frequency) :
  forward_rate_with_time irt curve_plain (1 # 2) (-1 # 2) rdc comp freq true
    = Err OutOfRange.
Proof. reflexivity. Qed.

End RateFacts.

(** C4 (code_bug): for [t = 1] on the curve [1 / (1 + t)] and the Simple
    inversion, [zero_rate_with_time] inverts [1 / discount_with_time(dt)]
    over [t] (rate [1/10000]), not [1 / discount_with_time(t)] over [t]
    (rate [1]). *)
Theorem zero_rate_with_time_discounts_at_dt :
  let code := zero_rate_with_time implied_rate_with_time_simple curve_plain 1
                Simple Annual true in
  let claimed := (df <- discount_with_time curve_plain 1 true ;;
                  implied_rate_with_time_simple (1 / df)
                    (yts_day_counter curve_plain) Simple Annual 1) in
  match code with Ok x => rate x == 1 # 10000 | Err _ => False end /\
  match claimed with Ok x => rate x == 1 | Err _ => False end /\
  code <> claimed.
Proof.
  split; [|split].
  - vm_compute; reflexivity.
  - vm_compute; reflexivity.
  - intros H.
    apply (f_equal (fun r => match r with Ok x => Qeq_bool (rate x) 1 | Err _ => false end)) in H.
    vm_compute in H; discriminate.
Qed.

(** C6 counterexample: with [d1 < d2], [forward_rate] still fails when
    [d1] precedes the reference date (OutOfRange from the discount query). *)
Lemma forward_rate_before_reference_fails :
  ~ exists v, forward_rate implied_rate_simple implied_rate_with_time_simple
                curve_plain (Date_new 1 June 2023) (Date_new 1 January 2025)
                thirty360 Simple Annual true = Ok v.
Proof.
  intros [v H]; vm_compute in H; discriminate.
Qed.

(** ** Jump bookkeeping *)

(** C8 (code_bug): with jump quotes but no jump dates, [set_jumps] panics:
    the default-date loop [for n in 0..=jumps_num] writes
    [jump_dates[jumps_num]], one past the resized vector. *)
Theorem set_jumps_default_dates_out_of_bounds (s : YieldTermStructure) (r : Date) :
  jump_dates s = [] -> jumps s <> [] -> reference_date s = Ok r ->
  set_jumps s = Err IndexOutOfBounds.
Proof.
  intros Hd Hj Hr; unfold set_jumps; rewrite Hd.
  destruct (jumps s) as [|q qs] eqn:Ej; [contradiction|].
  cbn [andb negb]; rewrite Hr, bind_ok, seq_S, Nat.add_0_l.
  rewrite default_jump_dates_past_end; [reflexivity| |apply seq_below].
  apply resize_with_length.
Qed.

Lemma set_jumps_default_dates_out_of_bounds_witness :
  set_jumps curve_quotes_only = Err IndexOutOfBounds.
Proof.
  apply (set_jumps_default_dates_out_of_bounds curve_quotes_only ref_2024);
    [reflexivity | discriminate | reflexivity].
Defined.

(** C9 (code_bug): the loops [for n in 0..=jumps_num] of [set_jumps]
    index one past the jump vectors, so [YieldTermStructure::new] panics
    with an out-of-bounds index for every input. *)
Theorem new_out_of_bounds (b0 : Base) (cal : nat) (ref : Date) (dc : DayCounter)
    (sd : Z) (js : list Quote) (jds : list Date) (impl : Time -> DiscountFactor) :
  new b0 cal ref dc sd js jds impl = Err IndexOutOfBounds.
Proof.
  unfold new, set_jumps; cbn [jump_dates jumps yts_default jump_times].
  destruct jds as [|d jds'].
  - destruct js as [|q js'].
    + reflexivity.
    + cbn [andb negb]; unfold reference_date, base_reference_date.
      cbn [base reference_date_]; rewrite !bind_ok.
      cbn [jumps_num]; rewrite seq_S, Nat.add_0_l, default_jump_dates_past_end;
        [reflexivity| |apply seq_below].
      apply resize_with_length.
  - destruct js; reflexivity.
Qed.

(** ** Witnesses *)

Lemma zero_rate_branches_witness :
  zero_rate implied_rate_simple implied_rate_with_time_simple curve_plain
    (Date_new 1 January 2025) thirty360 Simple Annual false =
  (df <- discount curve_plain (Date_new 1 January 2025) false ;;
   implied_rate_simple (1 / df) thirty360 Simple Annual ref_2024
     (Date_new 1 January 2025) None None).
Proof.
  rewrite (zero_rate_branches implied_rate_simple implied_rate_with_time_simple
             curve_plain ref_2024 (Date_new 1 January 2025) thirty360 Simple
             Annual false) by reflexivity.
  reflexivity.
Defined.

Lemma forward_rate_same_date_witness :
  forward_rate implied_rate_simple implied_rate_with_time_simple curve_plain
    (Date_new 1 January 2025) (Date_new 1 January 2025) thirty360 Continuous
    Annual false =
  (let t1 := f64_max (thirty360 ref_2024 (Date_new 1 January 2025) - dt / 2) 0 in
   let t2 := t1 + dt in
   a <- discount_with_time curve_plain t1 true ;;
   b <- discount_with_time curve_plain t2 true ;;
   implied_rate_with_time_simple (a / b) thirty360 Continuous Annual dt).
Proof.
  apply (forward_rate_same_date implied_rate_simple implied_rate_with_time_simple
           curve_plain ref_2024 (Date_new 1 January 2025)
           (thirty360 ref_2024 (Date_new 1 January 2025)));
    vm_compute; reflexivity.
Defined.

Lemma forward_rate_ordering_witness :
  forward_rate implied_rate_simple implied_rate_with_time_simple curve_plain
    (Date_new 1 January 2026) (Date_new 1 January 2025) thirty360 Simple Annual
    true = Err DomainError /\
  forward_rate implied_rate_simple implied_rate_with_time_simple curve_plain
    (Date_new 1 January 2025) (Date_new 1 January 2026) thirty360 Simple Annual
    true =
  (a <- discount curve_plain (Date_new 1 January 2025) true ;;
   b <- discount curve_plain (Date_new 1 January 2026) true ;;
   implied_rate_simple (a / b) thirty360 Simple Annual (Date_new 1 January 2025)
     (Date_new 1 January 2026) None None).
Proof.
  split.
  - apply (proj1 (forward_rate_ordering implied_rate_simple
             implied_rate_with_time_simple curve_plain (Date_new 1 January 2026)
             (Date_new 1 January 2025) thirty360 Simple Annual true)).
    reflexivity.
  - apply (proj2 (forward_rate_ordering implied_rate_simple
             implied_rate_with_time_simple curve_plain (Date_new 1 January 2025)
             (Date_new 1 January 2026) thirty360 Simple Annual true)).
    reflexivity.
Defined.

Lemma forward_rate_with_time_curve_day_counter_witness :
  forward_rate_with_time implied_rate_with_time_simple curve_plain 1 2 thirty360
    Simple Annual true = Ok (mkInterestRate (1 # 2) thirty360 Simple Annual) /\
  exists compound u1 u2,
    implied_rate_with_time_simple compound (yts_day_counter curve_plain) Simple
      Annual (u2 - u1) = Ok (mkInterestRate (1 # 2) thirty360 Simple Annual) /\
    ((Qeq_bool 2 1 = false /\ u1 = 1 /\ u2 = 2) \/
     (Qeq_bool 2 1 = true /\ u1 = f64_max (1 - dt / 2) 0 /\ u2 = u1 + dt)).
Proof.
  assert (E : forward_rate_with_time implied_rate_with_time_simple curve_plain 1 2
                thirty360 Simple Annual true
              = Ok (mkInterestRate (1 # 2) thirty360 Simple Annual))
    by (vm_compute; reflexivity).
  split; [exact E|].
  exact (proj2 (forward_rate_with_time_curve_day_counter
                  implied_rate_with_time_simple curve_plain 1 2 thirty360
                  thirty360 Simple Annual true) _ E).
Defined.

(** ** Further properties of the curve *)

Lemma jump_loop_fields (s1 s2 : YieldTermStructure) (t : Time) :
  jumps s1 = jumps s2 -> jump_times s1 = jump_times s2 ->
  forall ns acc, jump_loop s1 t ns acc = jump_loop s2 t ns acc.
Proof.
  intros Hj Ht ns; induction ns as [|n ns IH]; intros acc; simpl; [reflexivity|].
  rewrite Hj, Ht.
  destruct (vec_get (jump_times s2) n) as [tn|]; simpl; [|reflexivity].
  destruct (Qlt_bool 0 tn && Qlt_bool tn t); [|apply IH].
  destruct (vec_get (jumps s2) n) as [q|]; simpl; [|reflexivity].
  destruct (is_valid q); simpl; [|reflexivity].
  destruct (Qlt_bool 0 (value q)); simpl; [apply IH|reflexivity].
Qed.

Lemma discount_with_time_fields (s1 s2 : YieldTermStructure) (t : Time) (e : bool) :
  jumps s1 = jumps s2 -> jump_times s1 = jump_times s2 ->
  jumps_num s1 = jumps_num s2 -> discount_impl s1 = discount_impl s2 ->
  yts_max_time s1 = yts_max_time s2 ->
  discount_with_time s1 t e = discount_with_time s2 t e.
Proof.
  intros Hj Ht Hn Hi Hm; unfold discount_with_time.
  rewrite Hm, Hn, Hi, (jump_loop_fields s1 s2 t Hj Ht), Hj; reflexivity.
Qed.

Lemma date_lt_total (a b : Date) :
  date_eqb a b = false -> date_lt b a = false -> date_lt a b = true.
Proof.
  destruct a as [d1 m1 y1], b as [d2 m2 y2]; unfold date_lt, date_eqb, date_key; simpl.
  date_cases; discriminate.
Qed.

(** The default-time loop of [set_jumps] panics at the first index past
    [jump_times]. *)
Lemma refresh_jump_times_past_end (s : YieldTermStructure) (k : nat) :
  forall ns jt v, (length jt <= k)%nat ->
  refresh_jump_times s jt (ns ++ [k]) <> Ok v.
Proof.
  intros ns; induction ns as [|n ns IH]; intros jt v Hlen; simpl.
  - destruct (vec_get (jump_dates s) k); simpl; [|discriminate].
    destruct (time_from_reference s d); simpl; [|discriminate].
    unfold vec_set; destruct (Nat.ltb_spec k (length jt)); [lia|discriminate].
  - destruct (vec_get (jump_dates s) n); simpl; [|discriminate].
    destruct (time_from_reference s d); simpl; [|discriminate].
    unfold vec_set; destruct (Nat.ltb n (length jt)); simpl; [|discriminate].
    apply IH; rewrite replace_nth_length; exact Hlen.
Qed.

(** X1: over in-range indices the jump loop multiplies the accumulator by
    the value of exactly the jumps with [0 < jump_times[n] < t], each once;
    quotes of the other jumps are never read. *)
Theorem jump_loop_in_range_product (s : YieldTermStructure) (t : Time) :
  forall (ns : list nat) (acc : Q),
  Forall (fun n => (n < length (jump_times s))%nat /\ (n < length (jumps s))%nat /\
     (jump_applies s t n = true ->
        is_valid (nth n (jumps s) (mkQuote 1 true)) = true /\
        0 < value (nth n (jumps s) (mkQuote 1 true)))) ns ->
  exists r, jump_loop s t ns acc = Ok r /\ r == acc * applied_jump_product s t ns.
Proof.
  intros ns; induction ns as [|n ns IH]; intros acc Hns.
  - exists acc; split; [reflexivity|]; simpl; ring.
  - inversion Hns as [|? ? [Ht [Hj Happ]] Hrest]; subst.
    simpl; unfold vec_get.
    rewrite (nth_error_nth' (jump_times s) 0 Ht); simpl.
    unfold jump_applies in *; rewrite (nth_error_nth' (jump_times s) 0 Ht) in *.
    destruct (Qlt_bool 0 (nth n (jump_times s) 0) && Qlt_bool (nth n (jump_times s) 0) t).
    + destruct (Happ eq_refl) as [Hv Hpos].
      rewrite (nth_error_nth' (jumps s) (mkQuote 1 true) Hj); simpl.
      unfold assert_; rewrite Hv; simpl.
      replace (Qlt_bool 0 (value (nth n (jumps s) (mkQuote 1 true)))) with true.
      * destruct (IH (acc * value (nth n (jumps s) (mkQuote 1 true))) Hrest) as [r [Hr Hq]].
        exists r; split; [exact Hr|]; rewrite Hq; ring.
      * unfold Qlt_bool; symmetry; apply negb_true_iff, not_true_iff_false.
        rewrite Qle_bool_iff; apply Qlt_not_le; exact Hpos.
    + destruct (IH acc Hrest) as [r [Hr Hq]].
      exists r; split; [exact Hr|]; rewrite Hq; ring.
Qed.

Lemma jump_loop_in_range_product_witness :
  exists r, jump_loop curve_one_jump 1 [0%nat] 1 = Ok r /\
            r == 1 * applied_jump_product curve_one_jump 1 [0%nat].
Proof.
  apply jump_loop_in_range_product.
  repeat constructor; vm_compute; reflexivity.
Defined.

(** X2: extrapolation only widens the domain of [discount_with_time]:
    a value returned without extrapolation is returned unchanged with it. *)
Theorem discount_with_time_extrapolate_monotone (s : YieldTermStructure)
    (t : Time) (v : DiscountFactor) :
  discount_with_time s t false = Ok v -> discount_with_time s t true = Ok v.
Proof.
  unfold discount_with_time, check_range_with_time.
  destruct (Qlt_bool t 0); simpl; [discriminate|].
  destruct (Qlt_bool (yts_max_time s) t); simpl; [discriminate|auto].
Qed.

Lemma discount_with_time_extrapolate_monotone_witness :
  discount_with_time curve_plain 3 true = Ok (hyperbolic 3).
Proof.
  apply discount_with_time_extrapolate_monotone; reflexivity.
Defined.

(** X3: a curve built by [Default::default()] has no discount rule and no
    jumps, so [discount_with_time] never returns a discount factor on it. *)
Theorem default_curve_no_discount (b0 : Base) (t : Time) (e : bool)
    (v : DiscountFactor) :
  discount_with_time (yts_default b0) t e <> Ok v.
Proof.
  unfold discount_with_time.
  destruct (check_range_with_time t (yts_max_time (yts_default b0)) e) as [[]|];
    simpl; discriminate.
Qed.

(** X4: none of the setters changes a time-based discount query: the
    validity bound, jumps, jump times and discount rule are untouched. *)
Theorem setters_keep_discount_with_time (s : YieldTermStructure) (t : Time)
    (e : bool) (d : Date) (cal : nat) (dc : DayCounter) (sd : Z) :
  discount_with_time (set_reference_date s d) t e = discount_with_time s t e /\
  discount_with_time (set_calendar s cal) t e = discount_with_time s t e /\
  discount_with_time (set_day_counter s dc) t e = discount_with_time s t e /\
  discount_with_time (set_settlement_days s sd) t e = discount_with_time s t e.
Proof.
  repeat split; apply discount_with_time_fields; reflexivity.
Qed.

(** X5: [set_reference_date] does not rerun [set_jumps]: afterwards a date
    query measures the date from the new reference date, while the jump
    times and the recorded [latest_reference] stay those of the old one. *)
Theorem set_reference_date_keeps_jump_times (s : YieldTermStructure)
    (d date : Date) (e : bool) :
  discount (set_reference_date s d) date e =
    discount_with_time s (day_counter (base s) d date) e /\
  jump_times (set_reference_date s d) = jump_times s /\
  latest_reference (set_reference_date s d) = latest_reference s.
Proof.
  split; [|split; reflexivity].
  unfold discount, time_from_reference, base_time_from_reference,
    base_reference_date; simpl.
  apply discount_with_time_fields; reflexivity.
Qed.

(** X6: [set_jumps] never succeeds on a curve whose [jump_times] has at
    most [jumps_num] entries: whichever branch it takes, a loop over
    [0..=jumps_num] writes one past the end; rerunning it after a change
    of reference date therefore panics. *)
Theorem set_jumps_never_ok (s : YieldTermStructure) (v : YieldTermStructure) :
  (length (jump_times s) <= jumps_num s)%nat -> set_jumps s <> Ok v.
Proof.
  intros Hlen; unfold set_jumps; rewrite seq_S, Nat.add_0_l.
  destruct ((match jump_dates s with [] => true | _ => false end)
             && negb (match jumps s with [] => true | _ => false end)).
  - destruct (reference_date s) as [r|]; simpl; [|discriminate].
    rewrite default_jump_dates_past_end; [discriminate| |apply seq_below].
    apply resize_with_length.
  - rewrite bind_ok, seq_S, Nat.add_0_l.
    destruct (refresh_jump_times s (jump_times s) (seq 0 (jumps_num s) ++ [jumps_num s]))
      as [jt|] eqn:E; simpl; [|discriminate].
    exfalso; exact (refresh_jump_times_past_end s _ _ _ _ Hlen E).
Qed.

Lemma set_jumps_never_ok_witness : ~ exists v, set_jumps curve_one_jump = Ok v.
Proof.
  intros [v H].
  exact (set_jumps_never_ok curve_one_jump v (le_n 1) H).
Defined.

Section ExtraRateFacts.

Variable ir : Q -> DayCounter -> Compounding -> Frequency ->
  Date -> Date -> option Q -> option Time -> result InterestRate.
Variable irt : Q -> DayCounter -> Compounding -> Frequency ->
  Time -> result InterestRate.

(** X7: at the reference date, [zero_rate] with the curve's own day
    counter is [zero_rate_with_time] at time 0, which in turn is
    [zero_rate_with_time] at [dt]: all three invert [1 / discount(dt)]
    over [dt]. *)
Theorem zero_rate_at_reference_instantaneous (s : YieldTermStructure) (r : Date)
    (comp : Compounding) (freq : Frequency) (e : bool) :
  reference_date s = Ok r ->
  zero_rate ir irt s r (yts_day_counter s) comp freq e =
    zero_rate_with_time irt s 0 comp freq e /\
  zero_rate_with_time irt s 0 comp freq e =
    zero_rate_with_time irt s dt comp freq e.
Proof.
  intros Hr; split; [|reflexivity].
  unfold zero_rate; rewrite Hr, bind_ok, date_eqb_refl; reflexivity.
Qed.

(** X8: in the [d1 == d2] branch of [forward_rate], the caller's
    [extrapolate] flag only reaches the range check of [d1]: for a date
    not after [max_date], both flags give the same result. *)
Theorem forward_rate_same_date_extrapolate_irrelevant (s : YieldTermStructure)
    (d : Date) (rdc : DayCounter) (comp : Compounding) (freq : Frequency) :
  date_gt d (yts_max_date s) = false ->
  forward_rate ir irt s d d rdc comp freq true =
    forward_rate ir irt s d d rdc comp freq false.
Proof.
  intros Hd; unfold forward_rate; rewrite date_eqb_refl.
  destruct (reference_date s) as [r|]; simpl; [|reflexivity].
  unfold check_range; rewrite Hd; simpl.
  destruct (date_lt d r); reflexivity.
Qed.

(** X9: likewise in the [t1 == t2] branch of [forward_rate_with_time]: for
    a time not beyond [max_time], both flags give the same result. *)
Theorem forward_rate_with_time_same_time_extrapolate_irrelevant
    (s : YieldTermStructure) (t : Time) (rdc : DayCounter) (comp : Compounding)
    (freq : Frequency) :
  Qlt_bool (yts_max_time s) t = false ->
  forward_rate_with_time irt s t t rdc comp freq true =
    forward_rate_with_time irt s t t rdc comp freq false.
Proof.
  intros Ht; unfold forward_rate_with_time.
  replace (Qeq_bool t t) with true by (symmetry; apply Qeq_bool_iff; reflexivity).
  unfold check_range_with_time; rewrite Ht; simpl.
  destruct (Qlt_bool t 0); reflexivity.
Qed.

(** X10: on a curve whose reference date is unresolved, [discount] and
    [zero_rate] fail with Unresolved, and so does [forward_rate] unless
    [d1 > d2], where the ordering assertion fails first with DomainError. *)
Theorem unresolved_date_queries (s : YieldTermStructure) (d d1 d2 : Date)
    (rdc : DayCounter) (comp : Compounding) (freq : Frequency) (e : bool) :
  reference_date_ (base s) = None ->
  discount s d e = Err Unresolved /\
  zero_rate ir irt s d rdc comp freq e = Err Unresolved /\
  (date_lt d2 d1 = false -> forward_rate ir irt s d1 d2 rdc comp freq e = Err Unresolved).
Proof.
  intros Hn.
  assert (Hd : forall x, discount s x e = Err Unresolved).
  { intros x; unfold discount, time_from_reference, base_time_from_reference,
      base_reference_date; rewrite Hn; reflexivity. }
  assert (Hr : reference_date s = Err Unresolved).
  { unfold reference_date, base_reference_date; rewrite Hn; reflexivity. }
  split; [apply Hd|split].
  - unfold zero_rate; rewrite Hr; reflexivity.
  - intros Hlt; unfold forward_rate.
    destruct (date_eqb d1 d2) eqn:Heq; [rewrite Hr; reflexivity|].
    rewrite (date_lt_total _ _ Heq Hlt); simpl; rewrite Hd; reflexivity.
Qed.

End ExtraRateFacts.

Lemma zero_rate_at_reference_instantaneous_witness :
  zero_rate implied_rate_simple implied_rate_with_time_simple curve_plain ref_2024
    thirty360 Simple Annual true =
    zero_rate_with_time implied_rate_with_time_simple curve_plain 0 Simple Annual true /\
  zero_rate_with_time implied_rate_with_time_simple curve_plain 0 Simple Annual true =
    zero_rate_with_time implied_rate_with_time_simple curve_plain dt Simple Annual true.
Proof.
  apply (zero_rate_at_reference_instantaneous implied_rate_simple
           implied_rate_with_time_simple curve_plain ref_2024); reflexivity.
Defined.

Lemma forward_rate_same_date_extrapolate_irrelevant_witness :
  forward_rate implied_rate_simple implied_rate_with_time_simple curve_plain
    (Date_new 1 January 2025) (Date_new 1 January 2025) thirty360 Simple Annual true =
  forward_rate implied_rate_simple implied_rate_with_time_simple curve_plain
    (Date_new 1 January 2025) (Date_new 1 January 2025) thirty360 Simple Annual false.
Proof.
  apply forward_rate_same_date_extrapolate_irrelevant; reflexivity.
Defined.

Lemma forward_rate_with_time_same_time_extrapolate_irrelevant_witness :
  forward_rate_with_time implied_rate_with_time_simple curve_plain 3 3 thirty360
    Simple Annual true =
  forward_rate_with_time implied_rate_with_time_simple curve_plain 3 3 thirty360
    Simple Annual false.
Proof.
  apply forward_rate_with_time_same_time_extrapolate_irrelevant; reflexivity.
Defined.

Lemma unresolved_date_queries_witness :
  discount curve_unresolved ref_2024 true = Err Unresolved /\
  zero_rate implied_rate_simple implied_rate_with_time_simple curve_unresolved
    ref_2024 thirty360 Simple Annual true = Err Unresolved /\
  forward_rate implied_rate_simple implied_rate_with_time_simple curve_unresolved
    ref_2024 (Date_new 1 January 2025) thirty360 Simple Annual true = Err Unresolved.
Proof.
  destruct (unresolved_date_queries implied_rate_simple implied_rate_with_time_simple
              curve_unresolved ref_2024 ref_2024 (Date_new 1 January 2025)
              thirty360 Simple Annual true eq_refl) as [H1 [H2 H3]].
  split; [exact H1|split; [exact H2|apply H3; reflexivity]].
Defined.
